(** * The authentication flag of index.js

    A shallow embedding of the Express application in [index.js]: one
    module-level flag [isAuthenticated], three route handlers, and the
    configuration read from [process.env].  Handlers are functions from the
    request and the current world to a response and the next world. *)

From Stdlib Require Import String Ascii List Bool Arith Lia.
From stdpp Require Import base option gmap strings pretty.
Import ListNotations.

Local Open Scope string_scope.

(** ** JavaScript values that reach the handlers *)

Module Js.

(** Values read from [req.body] and [process.env]: a missing property reads
    as [undefined], a form field is a string, and the extended urlencoded
    parser may also produce arrays and objects, which [===] compares by
    reference. *)
Inductive value : Type :=
| VUndefined
| VString (s : string)
| VRef (addr : nat).

(** The operator [===] on these values. *)
Definition strict_eq (a b : value) : bool :=
  match a, b with
  | VUndefined, VUndefined => true
  | VString s, VString t => String.eqb s t
  | VRef x, VRef y => Nat.eqb x y
  | _, _ => false
  end.

(** Property read [o.k] on an object used as a map. *)
Definition get (o : gmap string value) (k : string) : value :=
  match o !! k with
  | Some v => v
  | None => VUndefined
  end.

(** [process.env.k]: the environment holds strings only. *)
Definition env_get (env : gmap string string) (k : string) : value :=
  match env !! k with
  | Some s => VString s
  | None => VUndefined
  end.

(** String conversion inside a template literal, [`${v}`], for the
    primitive values the program interpolates. *)
Definition template (v : value) : string :=
  match v with
  | VUndefined => "undefined"
  | VString s => s
  | VRef _ => "[object Object]"
  end.

End Js.

Import Js.

(** ** Requests, responses and the world *)

(** What a handler does with [res]. *)
Inductive response : Type :=
| Send (body : string)
| Redirect (location : string).

(** Status line Express gives each of the two calls when the handler sets
    none: 200 for [res.send], 302 for [res.redirect]. *)
Definition statusCode (r : response) : nat :=
  match r with
  | Send _ => 200
  | Redirect _ => 302
  end.

Definition is_success (code : nat) : bool := Nat.leb 200 code && Nat.ltb code 300.
Definition is_error (code : nat) : bool := Nat.leb 400 code.

(** The part of [req] a handler can see: who sent it, and the parsed form. *)
Record request : Type := {
  client : string;
  body : gmap string value
}.

(** Everything the handlers can change: the module-level flag and the lines
    written with [console.log]. *)
Record world : Type := {
  isAuthenticated : bool;
  console : list string
}.

Definition set_authenticated (b : bool) (w : world) : world :=
  {| isAuthenticated := b; console := console w |}.

Definition console_log (line : string) (w : world) : world :=
  {| isAuthenticated := isAuthenticated w; console := (console w ++ [line])%list |}.

(** ** The login form *)

Definition dq : string := String "034"%char EmptyString.
Definition nl : string := String "010"%char EmptyString.

Definition attr (name val : string) : string := name ++ "=" ++ dq ++ val ++ dq.

(** The template literal sent while the flag is unset, line by line. *)
Definition loginFormLines : list string :=
  [ EmptyString;
    "      <h1>You are not authenticated</h1>";
    "      <form " ++ attr "method" "POST" ++ " " ++ attr "action" "/authenticate" ++ ">";
    "        <label " ++ attr "for" "username" ++ ">Enter Username:</label>";
    "        <input " ++ attr "type" "text" ++ " " ++ attr "name" "username" ++ " "
       ++ attr "id" "username" ++ " required />";
    "        <label " ++ attr "for" "password" ++ ">Enter Password :</label>";
    "        <input " ++ attr "type" "text" ++ " " ++ attr "name" "password" ++ " "
       ++ attr "id" "password" ++ " required />";
    "        <button " ++ attr "type" "submit" ++ ">Submit</button>";
    "      </form>";
    "    " ].

Definition loginForm : string := Eval cbv in String.concat nl loginFormLines.

(** Substring test, used to read the form's attributes. *)
Fixpoint contains (needle hay : string) : bool :=
  if String.prefix needle hay then true
  else match hay with
       | EmptyString => false
       | String _ rest => contains needle rest
       end.

(** ** Configuration and start-up *)

Section Handlers.

(** [process.env] after [configDotenv()] has run. *)
Variable env : gmap string string.

Definition port : nat := 3000.

(** ** Route handlers *)

(** [app.get('/')] *)
Definition showRoot (req : request) (w : world) : response * world :=
  (Send "Hello World!", w).

(** [app.get('/secret')] *)
Definition showSecret (req : request) (w : world) : response * world :=
  if negb (isAuthenticated w)
  then (Send loginForm, w)
  else (Send (template (env_get env "SECRET_MESSAGE")), w).

Definition receivedLine : string :=
  "Received username & password: " ++ template (env_get env "USERNAME")
    ++ " & " ++ template (env_get env "PASSWORD").

(** [app.post('/authenticate')] *)
Definition authenticate (req : request) (w : world) : response * world :=
  let username := get (body req) "username" in
  let password := get (body req) "password" in
  let w1 := console_log receivedLine w in
  if strict_eq username (env_get env "USERNAME")
     && strict_eq password (env_get env "PASSWORD")
  then (Redirect "/secret", set_authenticated true w1)
  else (Send "Invalid credentials, please try again.", w1).

End Handlers.

(** ** Start-up *)

(** Outcome of running the module's top level. *)
Inductive startup : Type :=
| Listening (w : world)
| Aborted (error : string).

Definition listeningLine : string :=
  "Example app listening on port " ++ pretty port.

(** The world once [app.listen] has called back: [let isAuthenticated =
    false] and the one line the callback logs. *)
Definition initial : world :=
  {| isAuthenticated := false; console := [listeningLine] |}.

(** The top level of [index.js].  After [configDotenv()] it builds the
    application, declares the flag, registers the handlers and listens; no
    statement reads or checks a configuration value, so the outcome does not
    depend on the environment. *)
Definition main (env : gmap string string) : startup := Listening initial.

(** ** Requests routed to the three handlers *)

Inductive call : Type :=
| GetRoot (req : request)
| GetSecret (req : request)
| PostAuthenticate (req : request).

Definition handle (env : gmap string string) (c : call) (w : world)
  : response * world :=
  match c with
  | GetRoot req => showRoot req w
  | GetSecret req => showSecret env req w
  | PostAuthenticate req => authenticate env req w
  end.

(** The world after serving the calls in order. *)
Fixpoint run (env : gmap string string) (calls : list call) (w : world) : world :=
  match calls with
  | [] => w
  | c :: rest => run env rest (snd (handle env c w))
  end.

(** The test of line 38 on a request's form fields. *)
Definition credentials_match (env : gmap string string) (req : request) : bool :=
  strict_eq (get (body req) "username") (env_get env "USERNAME")
  && strict_eq (get (body req) "password") (env_get env "PASSWORD").

(** A call that takes the first branch of the authenticate handler. *)
Definition succeeds (env : gmap string string) (c : call) : bool :=
  match c with
  | PostAuthenticate req => credentials_match env req
  | _ => false
  end.

(** Building requests for examples. *)
Definition form (fields : list (string * string)) : gmap string value :=
  list_to_map (List.map (fun kv => (fst kv, VString (snd kv))) fields).

Definition mkenv (vars : list (string * string)) : gmap string string :=
  list_to_map vars.

(** ** Example configuration and requests *)

Definition env_admin : gmap string string :=
  mkenv [("SECRET_MESSAGE", "Welcome to the secret area!");
         ("USERNAME", "admin"); ("PASSWORD", "secret123")].

(** No [.env] file and no variables in the process environment. *)
Definition env_empty : gmap string string := mkenv [].

Definition login_as (who u p : string) : request :=
  {| client := who; body := form [("username", u); ("password", p)] |}.

(** A request whose form carries neither field. *)
Definition bare (who : string) : request :=
  {| client := who; body := form [] |}.

Definition good : request := login_as "alice" "admin" "secret123".
Definition bad : request := login_as "mallory" "wrong" "secret123".

(** A login whose [username] is not a string: the extended parser turns
    [username[]=admin] into an array, held by reference. *)
Definition array_login (who : string) (addr : nat) (p : string) : request :=
  {| client := who;
     body := <["username" := VRef addr]> (form [("password", p)]) |}.

(** The same credentials guarding a different secret. *)
Definition env_other : gmap string string :=
  mkenv [("SECRET_MESSAGE", "another secret");
         ("USERNAME", "admin"); ("PASSWORD", "secret123")].

(** ** What the server sends and which calls write *)

(** The responses sent while serving the calls in order, each handler
    running in the world its predecessors left. *)
Fixpoint responses (env : gmap string string) (calls : list call) (w : world)
  : list response :=
  match calls with
  | [] => []
  | c :: rest => fst (handle env c w) :: responses env rest (snd (handle env c w))
  end.

(** Calls routed to [app.post('/authenticate')]. *)
Definition is_post (c : call) : bool :=
  match c with
  | PostAuthenticate _ => true
  | _ => false
  end.

(** * Properties *)

(** ** The model computes *)

Example ex_pretty : listeningLine = "Example app listening on port 3000".
Proof. vm_compute. reflexivity. Qed.

Example ex_lookup :
  authenticate (mkenv [("USERNAME", "admin"); ("PASSWORD", "secret123")])
    {| client := "a"; body := form [("username", "admin"); ("password", "secret123")] |}
    initial
  = (Redirect "/secret",
     {| isAuthenticated := true;
        console := [listeningLine; "Received username & password: admin & secret123"] |}).
Proof. vm_compute. reflexivity. Qed.

(** ** Strict equality *)

Lemma strict_eq_true (a b : value) : strict_eq a b = true <-> a = b.
Proof.
  destruct a as [|s|x], b as [|t|y]; simpl; split; intros H;
    try reflexivity; try discriminate.
  - f_equal. now apply String.eqb_eq.
  - injection H as ->. apply String.eqb_refl.
  - f_equal. now apply Nat.eqb_eq.
  - injection H as ->. apply Nat.eqb_refl.
Qed.

Lemma strict_eq_false (a b : value) : strict_eq a b = false <-> a <> b.
Proof.
  rewrite <- strict_eq_true. destruct (strict_eq a b); split; congruence.
Qed.

Lemma credentials_match_true env req :
  credentials_match env req = true <->
  get (body req) "username" = env_get env "USERNAME"
  /\ get (body req) "password" = env_get env "PASSWORD".
Proof.
  unfold credentials_match. rewrite andb_true_iff, !strict_eq_true. reflexivity.
Qed.

(** ** The handlers, branch by branch *)

Lemma authenticate_match env req w :
  credentials_match env req = true ->
  authenticate env req w
  = (Redirect "/secret", set_authenticated true (console_log (receivedLine env) w)).
Proof.
  unfold authenticate, credentials_match. intros ->. reflexivity.
Qed.

Lemma authenticate_mismatch env req w :
  credentials_match env req = false ->
  authenticate env req w
  = (Send "Invalid credentials, please try again.", console_log (receivedLine env) w).
Proof.
  unfold authenticate, credentials_match. intros ->. reflexivity.
Qed.

Lemma authenticate_flag env req w :
  isAuthenticated (snd (authenticate env req w))
  = credentials_match env req || isAuthenticated w.
Proof.
  destruct (credentials_match env req) eqn:E.
  - now rewrite authenticate_match.
  - now rewrite authenticate_mismatch.
Qed.

Lemma showSecret_world env req w : snd (showSecret env req w) = w.
Proof. unfold showSecret. now destruct (negb (isAuthenticated w)). Qed.

Lemma handle_flag env c w :
  isAuthenticated (snd (handle env c w)) = succeeds env c || isAuthenticated w.
Proof.
  destruct c as [req|req|req]; simpl.
  - reflexivity.
  - now rewrite showSecret_world.
  - apply authenticate_flag.
Qed.

(** ** Traces *)

Lemma run_app env pre post w :
  run env (pre ++ post)%list w = run env post (run env pre w).
Proof.
  revert w. induction pre as [|c pre IH]; intros w; simpl; [reflexivity|apply IH].
Qed.

Lemma run_flag env calls w :
  isAuthenticated (run env calls w) = existsb (succeeds env) calls || isAuthenticated w.
Proof.
  revert w. induction calls as [|c calls IH]; intros w; simpl.
  - reflexivity.
  - rewrite IH, handle_flag. now rewrite orb_assoc, (orb_comm (existsb _ _)).
Qed.

Lemma run_keeps_true env calls w :
  isAuthenticated w = true -> isAuthenticated (run env calls w) = true.
Proof. intros H. rewrite run_flag, H. apply orb_true_r. Qed.

(** ** The flag *)

(** C1. The flag starts at false; a call can move it from false to true only
    when it is a POST to [/authenticate] whose two fields equal the configured
    credentials; no call moves it from true to false; hence along every
    sequence of calls served from the start, once the flag is true it stays
    true. *)
Theorem flag_is_one_way (env : gmap string string) :
  main env = Listening initial
  /\ isAuthenticated initial = false
  /\ (forall c w,
        isAuthenticated w = false ->
        isAuthenticated (snd (handle env c w)) = true ->
        exists req, c = PostAuthenticate req
          /\ get (body req) "username" = env_get env "USERNAME"
          /\ get (body req) "password" = env_get env "PASSWORD")
  /\ (forall c w,
        isAuthenticated w = true ->
        isAuthenticated (snd (handle env c w)) = true)
  /\ (forall pre post,
        isAuthenticated (run env pre initial) = true ->
        isAuthenticated (run env (pre ++ post)%list initial) = true).
Proof.
  split; [reflexivity|]. split; [reflexivity|]. split; [|split].
  - intros c w Hw Hw'. rewrite handle_flag, Hw, orb_false_r in Hw'.
    destruct c as [req|req|req]; simpl in Hw'; try discriminate.
    exists req. split; [reflexivity|]. now apply credentials_match_true.
  - intros c w Hw. rewrite handle_flag, Hw. apply orb_true_r.
  - intros pre post H. rewrite run_app. now apply run_keeps_true.
Qed.

Lemma flag_is_one_way_witness :
  (isAuthenticated initial = false
   /\ isAuthenticated (snd (handle env_admin (PostAuthenticate good) initial)) = true
   /\ exists req, PostAuthenticate good = PostAuthenticate req
        /\ get (body req) "username" = env_get env_admin "USERNAME"
        /\ get (body req) "password" = env_get env_admin "PASSWORD")
  /\ isAuthenticated
       (snd (handle env_admin (PostAuthenticate bad)
               (run env_admin [PostAuthenticate good] initial))) = true
  /\ isAuthenticated
       (run env_admin
          ([GetSecret bad; PostAuthenticate good]
             ++ [PostAuthenticate bad; GetRoot bad; GetSecret good])%list
          initial) = true.
Proof.
  destruct (flag_is_one_way env_admin) as (_ & _ & Hup & Hkeep & Hrun).
  split; [|split].
  - split; [reflexivity|]. split; [reflexivity|].
    apply (Hup (PostAuthenticate good) initial); reflexivity.
  - apply (Hkeep (PostAuthenticate bad)). reflexivity.
  - apply (Hrun [GetSecret bad; PostAuthenticate good]). reflexivity.
Defined.

(** ** Authenticate *)

(** C2. For string fields and configured string credentials, the handler
    decides by exact string equality of both pairs; when both hold the flag
    becomes true and the response redirects to [/secret].  With
    USERNAME=admin and PASSWORD=secret123, the fields admin and secret123 set
    the flag and redirect. *)
Theorem authenticate_exact_match (env : gmap string string) (req : request)
    (w : world) (u p eu ep : string) :
  get (body req) "username" = VString u ->
  get (body req) "password" = VString p ->
  env !! "USERNAME" = Some eu ->
  env !! "PASSWORD" = Some ep ->
  authenticate env req w
  = (if String.eqb u eu && String.eqb p ep
     then (Redirect "/secret", set_authenticated true (console_log (receivedLine env) w))
     else (Send "Invalid credentials, please try again.",
           console_log (receivedLine env) w))
  /\ (u = eu /\ p = ep ->
      fst (authenticate env req w) = Redirect "/secret"
      /\ isAuthenticated (snd (authenticate env req w)) = true)
  /\ (eu = "admin" -> ep = "secret123" -> u = "admin" -> p = "secret123" ->
      fst (authenticate env req w) = Redirect "/secret"
      /\ isAuthenticated (snd (authenticate env req w)) = true).
Proof.
  intros Hu Hp Heu Hep.
  assert (Hm : credentials_match env req = String.eqb u eu && String.eqb p ep).
  { unfold credentials_match, env_get. now rewrite Hu, Hp, Heu, Hep. }
  assert (Hgo : u = eu /\ p = ep ->
      fst (authenticate env req w) = Redirect "/secret"
      /\ isAuthenticated (snd (authenticate env req w)) = true).
  { intros [-> ->]. rewrite !String.eqb_refl in Hm.
    rewrite (authenticate_match _ _ _ Hm). split; reflexivity. }
  split; [|split].
  - destruct (String.eqb u eu && String.eqb p ep).
    + now apply authenticate_match.
    + now apply authenticate_mismatch.
  - exact Hgo.
  - intros -> -> -> ->. apply Hgo. split; reflexivity.
Qed.

Lemma authenticate_exact_match_witness :
  authenticate env_admin good initial
  = (Redirect "/secret",
     set_authenticated true (console_log (receivedLine env_admin) initial))
  /\ fst (authenticate env_admin good initial) = Redirect "/secret"
  /\ isAuthenticated (snd (authenticate env_admin good initial)) = true.
Proof.
  destruct (authenticate_exact_match env_admin good initial
              "admin" "secret123" "admin" "secret123"
              eq_refl eq_refl eq_refl eq_refl) as (Heq & _ & Hadmin).
  split; [exact Heq|].
  apply Hadmin; reflexivity.
Defined.

(** C3. For string fields of which at least one differs from the configured
    value, the handler leaves the flag as it was and sends the text
    "Invalid credentials, please try again." with the default status 200,
    which is a success status and not an error status; the world changes
    only by the line the handler logs. *)
Theorem authenticate_rejects (env : gmap string string) (req : request)
    (w : world) (u p : string) :
  get (body req) "username" = VString u ->
  get (body req) "password" = VString p ->
  env_get env "USERNAME" <> VString u \/ env_get env "PASSWORD" <> VString p ->
  authenticate env req w
  = (Send "Invalid credentials, please try again.", console_log (receivedLine env) w)
  /\ isAuthenticated (snd (authenticate env req w)) = isAuthenticated w
  /\ statusCode (fst (authenticate env req w)) = 200
  /\ is_success (statusCode (fst (authenticate env req w))) = true
  /\ is_error (statusCode (fst (authenticate env req w))) = false.
Proof.
  intros Hu Hp Hne.
  assert (Hm : credentials_match env req = false).
  { unfold credentials_match. rewrite Hu, Hp. apply andb_false_iff.
    destruct Hne as [H|H]; [left|right]; apply strict_eq_false; congruence. }
  rewrite (authenticate_mismatch _ _ _ Hm). repeat split.
Qed.

Lemma authenticate_rejects_witness :
  authenticate env_admin bad initial
  = (Send "Invalid credentials, please try again.",
     console_log (receivedLine env_admin) initial)
  /\ isAuthenticated (snd (authenticate env_admin bad initial)) = false.
Proof.
  assert (Hne : env_get env_admin "USERNAME" <> VString "wrong"
                \/ env_get env_admin "PASSWORD" <> VString "secret123").
  { left. vm_compute. discriminate. }
  destruct (authenticate_rejects env_admin bad initial "wrong" "secret123"
              eq_refl eq_refl Hne) as (Heq & Hflag & _).
  split; [exact Heq | exact Hflag].
Defined.

(** C6. With the flag already true, a call with matching credentials leaves
    the flag true and redirects to [/secret] again, with a status that is not
    an error; repeating the call gives the same response and the same flag. *)
Theorem authenticate_again (env : gmap string string) (req : request) (w : world) :
  isAuthenticated w = true ->
  credentials_match env req = true ->
  fst (authenticate env req w) = Redirect "/secret"
  /\ isAuthenticated (snd (authenticate env req w)) = true
  /\ is_error (statusCode (fst (authenticate env req w))) = false
  /\ fst (authenticate env req (snd (authenticate env req w)))
     = fst (authenticate env req w)
  /\ isAuthenticated (snd (authenticate env req (snd (authenticate env req w))))
     = isAuthenticated (snd (authenticate env req w)).
Proof.
  intros _ Hm. rewrite !(authenticate_match _ _ _ Hm). repeat split.
Qed.

Lemma authenticate_again_witness :
  fst (authenticate env_admin good (run env_admin [PostAuthenticate good] initial))
  = Redirect "/secret"
  /\ isAuthenticated
       (snd (authenticate env_admin good (run env_admin [PostAuthenticate good] initial)))
     = true.
Proof.
  destruct (authenticate_again env_admin good
              (run env_admin [PostAuthenticate good] initial)
              eq_refl eq_refl) as (Hr & Hf & _).
  split; [exact Hr | exact Hf].
Defined.

(** ** ShowSecret *)

(** C4. With the flag false the handler sends the login form, which asks
    for [username] and [password] and posts to [/authenticate]; with the flag
    true it sends the configured SECRET_MESSAGE; in both branches the world,
    flag included, is returned as it was. *)
Theorem showSecret_by_flag (env : gmap string string) (req : request) (w : world) :
  (isAuthenticated w = false -> fst (showSecret env req w) = Send loginForm)
  /\ (isAuthenticated w = true ->
      fst (showSecret env req w) = Send (template (env_get env "SECRET_MESSAGE"))
      /\ forall secretMessage, env !! "SECRET_MESSAGE" = Some secretMessage ->
           fst (showSecret env req w) = Send secretMessage)
  /\ snd (showSecret env req w) = w
  /\ contains (attr "method" "POST") loginForm = true
  /\ contains (attr "action" "/authenticate") loginForm = true
  /\ contains (attr "name" "username") loginForm = true
  /\ contains (attr "name" "password") loginForm = true.
Proof.
  split; [|split; [|split]].
  - intros H. unfold showSecret. now rewrite H.
  - intros H. unfold showSecret. rewrite H. simpl. split; [reflexivity|].
    intros m Hm. unfold env_get. now rewrite Hm.
  - apply showSecret_world.
  - repeat split; vm_compute; reflexivity.
Qed.

Lemma showSecret_by_flag_witness :
  fst (showSecret env_admin bad initial) = Send loginForm
  /\ fst (showSecret env_admin bad (run env_admin [PostAuthenticate good] initial))
     = Send "Welcome to the secret area!".
Proof.
  split.
  - apply (proj1 (showSecret_by_flag env_admin bad initial)). reflexivity.
  - apply (proj1 (proj2 (showSecret_by_flag env_admin bad
                           (run env_admin [PostAuthenticate good] initial))));
      reflexivity.
Defined.

(** C5. Served from the start, as long as no call has been a matching
    POST to [/authenticate], a GET of [/secret] sends the login form (and so
    not the secret text, unless the secret is configured to be the form
    itself); once one such call has been served, every later GET of
    [/secret] sends the secret text, whichever client asks: the handler does
    not look at the client. *)
Theorem secret_before_and_after (env : gmap string string) :
  (forall pre req,
     existsb (succeeds env) pre = false ->
     fst (handle env (GetSecret req) (run env pre initial)) = Send loginForm
     /\ (template (env_get env "SECRET_MESSAGE") <> loginForm ->
         fst (handle env (GetSecret req) (run env pre initial))
         <> Send (template (env_get env "SECRET_MESSAGE"))))
  /\ (forall pre a post req,
        succeeds env a = true ->
        fst (handle env (GetSecret req) (run env (pre ++ a :: post)%list initial))
        = Send (template (env_get env "SECRET_MESSAGE")))
  /\ (forall who who' form w,
        fst (handle env (GetSecret {| client := who; body := form |}) w)
        = fst (handle env (GetSecret {| client := who'; body := form |}) w)).
Proof.
  split; [|split].
  - intros pre req Hpre.
    assert (Hf : isAuthenticated (run env pre initial) = false).
    { rewrite run_flag, Hpre. reflexivity. }
    simpl. unfold showSecret. rewrite Hf. simpl. split; [reflexivity|].
    intros Hne Heq. apply Hne. now injection Heq.
  - intros pre a post req Ha.
    assert (Hf : isAuthenticated (run env (pre ++ a :: post)%list initial) = true).
    { rewrite run_flag, existsb_app. simpl. rewrite Ha.
      now rewrite orb_true_r. }
    simpl. unfold showSecret. now rewrite Hf.
  - reflexivity.
Qed.

Lemma secret_before_and_after_witness :
  (fst (handle env_admin (GetSecret good)
          (run env_admin [GetRoot good; PostAuthenticate bad; GetSecret bad] initial))
   = Send loginForm
   /\ fst (handle env_admin (GetSecret good)
             (run env_admin [GetRoot good; PostAuthenticate bad; GetSecret bad] initial))
      <> Send (template (env_get env_admin "SECRET_MESSAGE")))
  /\ fst (handle env_admin (GetSecret bad)
            (run env_admin
               ([PostAuthenticate bad] ++ PostAuthenticate good :: [GetRoot bad])%list
               initial))
     = Send "Welcome to the secret area!".
Proof.
  destruct (secret_before_and_after env_admin) as (Hbefore & Hafter & _).
  split.
  - destruct (Hbefore [GetRoot good; PostAuthenticate bad; GetSecret bad] good eq_refl)
      as (Hform & Hnot).
    split; [exact Hform|]. apply Hnot. vm_compute. discriminate.
  - apply (Hafter [PostAuthenticate bad] (PostAuthenticate good) [GetRoot bad] bad).
    reflexivity.
Defined.

(** ** ShowRoot *)

(** C7. For every request and every world, the root handler sends exactly
    "Hello World!" and returns the world as it was, whatever the
    configuration. *)
Theorem showRoot_fixed (env : gmap string string) (req : request) (w : world) :
  showRoot req w = (Send "Hello World!", w)
  /\ handle env (GetRoot req) w = (Send "Hello World!", w).
Proof. split; reflexivity. Qed.

(** ** Missing configuration *)

(** C8. When USERNAME, PASSWORD or SECRET_MESSAGE is absent, start-up still
    reaches the listening state with the flag false, and the authenticate
    handler answers every request by comparing the fields with the values
    read from the environment, where an absent variable reads as
    [undefined]; a login with string fields is then answered with the
    invalid-credentials text whenever USERNAME or PASSWORD is absent. *)
Theorem missing_configuration_is_silent (env : gmap string string) :
  env !! "USERNAME" = None \/ env !! "PASSWORD" = None
    \/ env !! "SECRET_MESSAGE" = None ->
  main env = Listening initial
  /\ (forall req w,
        authenticate env req w
        = if strict_eq (get (body req) "username") (env_get env "USERNAME")
             && strict_eq (get (body req) "password") (env_get env "PASSWORD")
          then (Redirect "/secret",
                set_authenticated true (console_log (receivedLine env) w))
          else (Send "Invalid credentials, please try again.",
                console_log (receivedLine env) w))
  /\ (env !! "USERNAME" = None -> env_get env "USERNAME" = VUndefined)
  /\ (env !! "PASSWORD" = None -> env_get env "PASSWORD" = VUndefined)
  /\ (forall req w u p,
        env !! "USERNAME" = None \/ env !! "PASSWORD" = None ->
        get (body req) "username" = VString u ->
        get (body req) "password" = VString p ->
        authenticate env req w
        = (Send "Invalid credentials, please try again.",
           console_log (receivedLine env) w)).
Proof.
  intros _. split; [reflexivity|]. split; [reflexivity|].
  split; [|split].
  - intros H. unfold env_get. now rewrite H.
  - intros H. unfold env_get. now rewrite H.
  - intros req w u p Habs Hu Hp. apply authenticate_mismatch.
    unfold credentials_match, env_get. rewrite Hu, Hp.
    destruct Habs as [H|H]; rewrite H; simpl;
      [reflexivity | apply andb_false_r].
Qed.

Lemma missing_configuration_is_silent_witness :
  main env_empty = Listening initial
  /\ env_get env_empty "USERNAME" = VUndefined
  /\ authenticate env_empty good initial
     = (Send "Invalid credentials, please try again.",
        console_log (receivedLine env_empty) initial).
Proof.
  destruct (missing_configuration_is_silent env_empty (or_introl eq_refl))
    as (Hmain & _ & Hu & _ & Hstr).
  split; [exact Hmain|]. split; [exact (Hu eq_refl)|].
  exact (Hstr good initial "admin" "secret123" (or_introl eq_refl) eq_refl eq_refl).
Defined.

(** C9. With USERNAME and PASSWORD both absent and a form that carries
    neither [username] nor [password], both strict comparisons are between
    [undefined] and [undefined] and hold: the flag is set and the response
    redirects to [/secret]. *)
Theorem authenticate_undefined_matches (env : gmap string string) (req : request)
    (w : world) :
  env !! "USERNAME" = None ->
  env !! "PASSWORD" = None ->
  body req !! "username" = None ->
  body req !! "password" = None ->
  get (body req) "username" = VUndefined
  /\ get (body req) "password" = VUndefined
  /\ env_get env "USERNAME" = VUndefined
  /\ env_get env "PASSWORD" = VUndefined
  /\ strict_eq VUndefined VUndefined = true
  /\ fst (authenticate env req w) = Redirect "/secret"
  /\ isAuthenticated (snd (authenticate env req w)) = true.
Proof.
  intros Heu Hep Hu Hp.
  assert (Hm : credentials_match env req = true).
  { unfold credentials_match, get, env_get. now rewrite Heu, Hep, Hu, Hp. }
  rewrite (authenticate_match _ _ _ Hm).
  unfold get, env_get. rewrite Heu, Hep, Hu, Hp. repeat split.
Qed.

Lemma authenticate_undefined_matches_witness :
  fst (authenticate env_empty (bare "anyone") initial) = Redirect "/secret"
  /\ isAuthenticated (snd (authenticate env_empty (bare "anyone") initial)) = true.
Proof.
  destruct (authenticate_undefined_matches env_empty (bare "anyone") initial
              eq_refl eq_refl eq_refl eq_refl) as (_ & _ & _ & _ & _ & Hr & Hf).
  split; [exact Hr | exact Hf].
Defined.

(** C10. With the flag true and SECRET_MESSAGE absent, the secret handler
    sends the string "undefined" (how a template literal prints an
    undefined value) with status 200, not an empty body and not an error,
    and leaves the world as it was. *)
Theorem showSecret_absent_message (env : gmap string string) (req : request)
    (w : world) :
  isAuthenticated w = true ->
  env !! "SECRET_MESSAGE" = None ->
  showSecret env req w = (Send "undefined", w)
  /\ fst (showSecret env req w) <> Send EmptyString
  /\ is_error (statusCode (fst (showSecret env req w))) = false.
Proof.
  intros Hw Hm. unfold showSecret, env_get. rewrite Hw, Hm. simpl.
  split; [reflexivity|]. split; [discriminate|reflexivity].
Qed.

Lemma showSecret_absent_message_witness :
  showSecret env_empty (bare "anyone")
    (run env_empty [PostAuthenticate (bare "anyone")] initial)
  = (Send "undefined", run env_empty [PostAuthenticate (bare "anyone")] initial).
Proof.
  apply (showSecret_absent_message env_empty (bare "anyone")
           (run env_empty [PostAuthenticate (bare "anyone")] initial)
           eq_refl eq_refl).
Defined.

(** * Further properties of the handlers *)

(** ** Substrings *)





(** ** What is written to the console *)





(** ** The world after a sequence of calls *)

(** X3. After serving any sequence of calls from any world, the flag is
    true exactly when it was true before or some call of the sequence was a
    POST to [/authenticate] with matching fields; the order of the calls and
    the failed attempts among them play no part. *)
Theorem flag_after_run (env : gmap string string) (calls : list call) (w : world) :
  isAuthenticated (run env calls w) = true
  <-> isAuthenticated w = true
      \/ exists c, In c calls /\ succeeds env c = true.
Proof.
  rewrite run_flag, orb_true_iff, existsb_exists. tauto.
Qed.

(** X4. GET requests never change the world: serving a sequence of calls
    leaves the same world as serving only its POSTs to [/authenticate]. *)
Theorem gets_leave_world (env : gmap string string) (calls : list call) (w : world) :
  run env calls w = run env (List.filter is_post calls) w.
Proof.
  revert w. induction calls as [|c calls IH]; intros w; [reflexivity|].
  destruct c as [req|req|req]; simpl.
  - apply IH.
  - rewrite showSecret_world. apply IH.
  - apply IH.
Qed.

(** ** Fields that are not strings, and fields that are missing *)

(** X5. A field that the parser delivered as an array or object never
    matches: if [username] or [password] is a reference value, the handler
    answers with the invalid-credentials text and leaves the flag alone,
    whatever is configured. *)
Theorem reference_field_rejected (env : gmap string string) (req : request)
    (w : world) (addr : nat) :
  get (body req) "username" = VRef addr \/ get (body req) "password" = VRef addr ->
  authenticate env req w
  = (Send "Invalid credentials, please try again.", console_log (receivedLine env) w)
  /\ isAuthenticated (snd (authenticate env req w)) = isAuthenticated w.
Proof.
  intros H.
  assert (Hm : credentials_match env req = false).
  { unfold credentials_match, env_get. apply andb_false_iff.
    destruct H as [H|H]; [left|right]; rewrite H.
    - now destruct (env !! "USERNAME").
    - now destruct (env !! "PASSWORD"). }
  rewrite (authenticate_mismatch _ _ _ Hm). split; reflexivity.
Qed.

Lemma reference_field_rejected_witness :
  authenticate env_admin (array_login "eve" 7 "secret123") initial
  = (Send "Invalid credentials, please try again.",
     console_log (receivedLine env_admin) initial)
  /\ isAuthenticated (snd (authenticate env_admin (array_login "eve" 7 "secret123") initial))
     = false.
Proof.
  exact (reference_field_rejected env_admin (array_login "eve" 7 "secret123")
           initial 7 (or_introl eq_refl)).
Defined.

(** X6. A form that lacks [username] while USERNAME is configured, or lacks
    [password] while PASSWORD is configured, is rejected: the missing field
    reads as undefined, which is not strictly equal to any string. *)
Theorem missing_field_rejected (env : gmap string string) (req : request)
    (w : world) :
  (body req !! "username" = None /\ is_Some (env !! "USERNAME"))
  \/ (body req !! "password" = None /\ is_Some (env !! "PASSWORD")) ->
  authenticate env req w
  = (Send "Invalid credentials, please try again.", console_log (receivedLine env) w)
  /\ isAuthenticated (snd (authenticate env req w)) = isAuthenticated w.
Proof.
  intros H.
  assert (Hm : credentials_match env req = false).
  { unfold credentials_match, get, env_get. apply andb_false_iff.
    destruct H as [[Hb [s Hs]]|[Hb [s Hs]]]; [left|right]; now rewrite Hb, Hs. }
  rewrite (authenticate_mismatch _ _ _ Hm). split; reflexivity.
Qed.

Lemma missing_field_rejected_witness :
  authenticate env_admin (bare "anyone") initial
  = (Send "Invalid credentials, please try again.",
     console_log (receivedLine env_admin) initial)
  /\ isAuthenticated (snd (authenticate env_admin (bare "anyone") initial)) = false.
Proof.
  exact (missing_field_rejected env_admin (bare "anyone") initial
           (or_introl (conj eq_refl (ex_intro _ "admin" eq_refl)))).
Defined.

(** ** Responses *)



(** X8. Following the redirect works from any world: after a POST to
    [/authenticate] with matching fields, a GET of [/secret] by any
    requester is answered with the secret text, also when failed attempts
    and other calls come in between. *)
Theorem login_then_secret (env : gmap string string) (req req' : request)
    (between : list call) (w : world) :
  credentials_match env req = true ->
  fst (authenticate env req w) = Redirect "/secret"
  /\ fst (showSecret env req' (run env between (snd (authenticate env req w))))
     = Send (template (env_get env "SECRET_MESSAGE")).
Proof.
  intros Hm. split.
  - now rewrite authenticate_match.
  - assert (Hf : isAuthenticated (run env between (snd (authenticate env req w)))
                 = true).
    { apply run_keeps_true. now rewrite authenticate_match. }
    unfold showSecret. now rewrite Hf.
Qed.

Lemma login_then_secret_witness :
  fst (authenticate env_admin good initial) = Redirect "/secret"
  /\ fst (showSecret env_admin bad
            (run env_admin [PostAuthenticate bad; GetRoot bad]
               (snd (authenticate env_admin good initial))))
     = Send "Welcome to the secret area!".
Proof.
  exact (login_then_secret env_admin good bad [PostAuthenticate bad; GetRoot bad]
           initial eq_refl).
Defined.

(** ** Before the first successful login *)

Lemma handle_before_login env env' c w :
  env_get env "USERNAME" = env_get env' "USERNAME" ->
  env_get env "PASSWORD" = env_get env' "PASSWORD" ->
  isAuthenticated w = false ->
  succeeds env c = false ->
  handle env c w = handle env' c w
  /\ isAuthenticated (snd (handle env c w)) = false.
Proof.
  intros Hu Hp Hw Hc. split.
  - destruct c as [req|req|req]; simpl.
    + reflexivity.
    + unfold showSecret. now rewrite Hw.
    + simpl in Hc.
      assert (Hc' : credentials_match env' req = false).
      { unfold credentials_match in *. now rewrite <- Hu, <- Hp. }
      rewrite (authenticate_mismatch _ _ _ Hc), (authenticate_mismatch _ _ _ Hc').
      unfold receivedLine. now rewrite Hu, Hp.
  - now rewrite handle_flag, Hc, Hw.
Qed.

(** X9. Until a login succeeds, nothing the server sends depends on
    SECRET_MESSAGE: two configurations with the same USERNAME and PASSWORD
    give the same responses to every sequence of calls that starts with the
    flag false and holds no matching POST to [/authenticate]. *)
Theorem secret_not_disclosed (env env' : gmap string string)
    (calls : list call) (w : world) :
  env_get env "USERNAME" = env_get env' "USERNAME" ->
  env_get env "PASSWORD" = env_get env' "PASSWORD" ->
  isAuthenticated w = false ->
  existsb (succeeds env) calls = false ->
  responses env calls w = responses env' calls w.
Proof.
  intros Hu Hp. revert w.
  induction calls as [|c calls IH]; intros w Hw Hex; [reflexivity|].
  simpl in Hex. apply orb_false_iff in Hex as [Hc Hrest].
  destruct (handle_before_login env env' c w Hu Hp Hw Hc) as [Heq Hflag].
  simpl. rewrite <- Heq. f_equal. now apply IH.
Qed.

Lemma secret_not_disclosed_witness :
  responses env_admin
    [GetSecret bad; PostAuthenticate bad; GetRoot bad; GetSecret good] initial
  = responses env_other
      [GetSecret bad; PostAuthenticate bad; GetRoot bad; GetSecret good] initial.
Proof.
  apply (secret_not_disclosed env_admin env_other); reflexivity.
Defined.


